(** * libvaqua/JavaWindowAccess.h

    The header declares the two accessors that take a native window to its
    Java window or to its Java platform window (CPlatformWindow).  It holds
    two prototypes and nothing else, so the development has two parts:

    - [Header]: the declarations as they are written, and what can be read
      off them (arity, parameter and result types, imports, absence of
      bodies);
    - [Bridge]: the behaviour of the two accessors.  Their bodies are in the
      implementation file, which is not part of the header; the behaviour is
      modelled from the specification and every such definition says so. *)

From Stdlib Require Import String List Bool NArith.
From stdpp Require Import base decidable option numbers gmap.
Import ListNotations.
Local Open Scope string_scope.
Local Open Scope list_scope.

(* ===================================================================== *)
(** ** The header, as written *)
(* ===================================================================== *)

Module Header.

(** Type expressions of a C / Objective-C declaration: a name ([jobject],
    [JNIEnv], [NSWindow]) or a pointer to a type. *)
Inductive CType : Type :=
| TVoid
| TNamed (name : string)
| TPtr (pointee : CType).

#[global] Instance CType_eq_dec : EqDecision CType.
Proof. solve_decision. Defined.

Record Param : Type := { p_type : CType; p_name : string }.

(** [jobject getJavaWindow(JNIEnv *env, NSWindow *w)] is
    [{| f_ret := jobject; f_name := getJavaWindow; f_params := [env; w] |}]. *)
Record FunDecl : Type :=
  { f_ret : CType; f_name : string; f_params : list Param }.

(** Statements a function body could hold.  The header has no body; the
    type is here so that "no body" and "no control flow" are properties
    that are checked and not properties of the syntax. *)
Inductive Stmt : Type :=
| SExpr
| SReturn
| SIf
| SLoop
| SSwitch
| SGoto.

(** Top-level items of a C / Objective-C translation unit. *)
Inductive Item : Type :=
| BlockComment (lines : list string)
| LineComment (text : string)
| ImportDirective (header : string)
| Prototype (d : FunDecl)
| FunctionDef (d : FunDecl) (body : list Stmt)
| TypeDef (name : string)
| GlobalVar (t : CType) (name : string).

Definition jobject_t : CType := TNamed "jobject".
Definition JNIEnv_ptr : CType := TPtr (TNamed "JNIEnv").
Definition NSWindow_ptr : CType := TPtr (TNamed "NSWindow").

(** Line 14. *)
Definition getJavaWindow_decl : FunDecl :=
  {| f_ret := jobject_t;
     f_name := "getJavaWindow";
     f_params := [ {| p_type := JNIEnv_ptr; p_name := "env" |};
                   {| p_type := NSWindow_ptr; p_name := "w" |} ] |}.

(** Line 15. *)
Definition getJavaPlatformWindow_decl : FunDecl :=
  {| f_ret := jobject_t;
     f_name := "getJavaPlatformWindow";
     f_params := [ {| p_type := JNIEnv_ptr; p_name := "env" |};
                   {| p_type := NSWindow_ptr; p_name := "w" |} ] |}.

(** Line 9. *)
Definition purpose_comment : string :=
  "Support for mapping a native window to a Java window or a Java platform window (CPlatformWindow).".

(** The whole file, lines 1 to 15, in order. *)
Definition JavaWindowAccess_h : list Item :=
  [ BlockComment
      [ "Copyright (c) 2018-2020 Alan Snyder.";
        "All rights reserved.";
        "";
        "You may not use, copy or modify this file, except in compliance with the license agreement. For details see";
        "accompanying license terms." ];
    LineComment purpose_comment;
    ImportDirective "Cocoa/Cocoa.h";
    ImportDirective "jni.h";
    Prototype getJavaWindow_decl;
    Prototype getJavaPlatformWindow_decl ].

(** The source files of the library that define this interface. *)
Definition source_files : list (string * list Item) :=
  [ ("libvaqua/JavaWindowAccess.h", JavaWindowAccess_h) ].

(** *** Reading a file *)

Definition prototypes (f : list Item) : list FunDecl :=
  flat_map (fun i => match i with Prototype d => [d] | _ => [] end) f.

Definition function_definitions (f : list Item) : list (FunDecl * list Stmt) :=
  flat_map (fun i => match i with FunctionDef d b => [(d, b)] | _ => [] end) f.

Definition imports (f : list Item) : list string :=
  flat_map (fun i => match i with ImportDirective h => [h] | _ => [] end) f.

Definition defined_types (f : list Item) : list string :=
  flat_map (fun i => match i with TypeDef n => [n] | _ => [] end) f.

Definition global_variables (f : list Item) : list string :=
  flat_map (fun i => match i with GlobalVar _ n => [n] | _ => [] end) f.

Definition is_control_flow (s : Stmt) : bool :=
  match s with
  | SIf | SLoop | SSwitch | SGoto => true
  | SExpr | SReturn => false
  end.

Definition control_flow (f : list Item) : list Stmt :=
  flat_map (fun db => List.filter is_control_flow (snd db)) (function_definitions f).

(** The signature of a function: its result type and its parameter types,
    in order. *)
Definition signature (d : FunDecl) : CType * list CType :=
  (f_ret d, map p_type (f_params d)).

(** *** The vocabulary of the specification

    The specification speaks of an execution-context handle, a native
    window identity and a managed-runtime object handle.  At this
    interface these are the JNI environment pointer, the Cocoa window
    pointer and the JNI object reference. *)
Inductive Role : Type :=
| ExecutionContext
| NativeWindow
| ManagedObject.

#[global] Instance Role_eq_dec : EqDecision Role.
Proof. solve_decision. Defined.

Definition role_of (t : CType) : option Role :=
  match t with
  | TPtr (TNamed "JNIEnv") => Some ExecutionContext
  | TPtr (TNamed "NSWindow") => Some NativeWindow
  | TNamed "jobject" => Some ManagedObject
  | _ => None
  end.

(** The parameters of a function other than its two inputs, the context
    and the window: where an error code, an exception or a status could be
    handed back to the caller. *)
Definition is_input (t : CType) : bool :=
  match role_of t with
  | Some ExecutionContext | Some NativeWindow => true
  | _ => false
  end.

Definition status_parameters (d : FunDecl) : list Param :=
  List.filter (fun p => negb (is_input (p_type p))) (f_params d).

End Header.

(* ===================================================================== *)
(** ** Functions the Java virtual machine can call *)
(* ===================================================================== *)

Module NativeMethod.
Import Header.

(** jni.h (imported on line 12) declares the types a native method
    exchanges with the virtual machine: the primitive types and the
    reference types. *)
Definition jni_primitive_types : list string :=
  [ "jboolean"; "jbyte"; "jchar"; "jshort"; "jint"; "jlong"; "jfloat";
    "jdouble" ].

Definition jni_reference_types : list string :=
  [ "jobject"; "jclass"; "jstring"; "jthrowable"; "jweak"; "jarray";
    "jobjectArray"; "jbooleanArray"; "jbyteArray"; "jcharArray";
    "jshortArray"; "jintArray"; "jlongArray"; "jfloatArray";
    "jdoubleArray" ].

Definition is_jni_type (t : CType) : bool :=
  match t with
  | TNamed n => bool_decide (n ∈ jni_primitive_types ++ jni_reference_types)
  | _ => false
  end.

Definition is_jni_result (t : CType) : bool :=
  match t with
  | TVoid => true
  | _ => is_jni_type t
  end.

(** The second argument of a native method is the receiver ([jobject]) or,
    for a static method, the class ([jclass]). *)
Definition is_receiver (t : CType) : bool :=
  bool_decide (t = TNamed "jobject") || bool_decide (t = TNamed "jclass").

(** The shape of a function that the virtual machine calls when Java code
    invokes a method declared [native]: the JNI environment pointer, then
    the receiver or class, then the method's arguments, all of JNI type. *)
Definition native_method_signature (d : FunDecl) : bool :=
  match f_params d with
  | e :: this :: args =>
      bool_decide (p_type e = JNIEnv_ptr)
      && is_receiver (p_type this)
      && forallb (fun a => is_jni_type (p_type a)) args
      && is_jni_result (f_ret d)
  | _ => false
  end.

(** The name under which the virtual machine finds a native method that was
    not registered by hand: [Java_] followed by the mangled class and
    method names. *)
Definition has_java_prefix (d : FunDecl) : bool :=
  String.prefix "Java_" (f_name d).

(** A function that takes the environment pointer and is not itself a
    native method is called by native code that already holds the
    environment. *)
Definition takes_environment (d : FunDecl) : bool :=
  match f_params d with
  | e :: _ => bool_decide (p_type e = JNIEnv_ptr)
  | [] => false
  end.

End NativeMethod.

(* ===================================================================== *)
(** ** The two accessors *)
(* ===================================================================== *)

Module Bridge.

(** jni.h: a [jobject] is an opaque pointer.  The null pointer refers to no
    object; every other value is a reference.  [N] has exactly this shape:
    [0] is the null pointer and [N.pos p] a reference. *)
Definition jobject : Type := N.
Definition NULL : jobject := 0%N.

Definition is_null (o : jobject) : bool :=
  match o with
  | N0 => true
  | Npos _ => false
  end.

(** A value of type [jobject] that is not the null pointer. *)
Definition is_reference (o : jobject) : bool := negb (is_null o).

(** Cocoa: an [NSWindow *] is the address of a native window object. *)
Definition NSWindow : Type := N.

(** Line 9 names the two kinds of managed object a native window is taken
    to: a Java window, and a Java platform window (CPlatformWindow). *)
Inductive JClass : Type :=
| JavaWindow
| CPlatformWindow.

#[global] Instance JClass_eq_dec : EqDecision JClass.
Proof. solve_decision. Defined.

(** Modelled from the spec: the header gives no definition of what is behind
    the execution-context handle.  The glossary says that a
    managed-runtime object handle references one of the runtime's heap
    objects; the context records, for each reference that is live in it,
    the kind of heap object it references.  The null pointer is no key of
    this table, so it references nothing. *)
Record JNIEnv : Type := { live : gmap positive JClass }.

Definition class_of (env : JNIEnv) (o : jobject) : option JClass :=
  match o with
  | N0 => None
  | Npos r => live env !! r
  end.

(** Modelled from the spec: the header gives no definition of the
    association between native windows and managed objects.  Section 2
    describes "a registration table keyed by native window identity, and
    two lookup accessors"; an entry holds the handle of the managed window
    and the handle of the platform window peer. *)
Record Peers : Type := { window : jobject; platformWindow : jobject }.

#[global] Instance Peers_eq_dec : EqDecision Peers.
Proof. unfold jobject. solve_decision. Defined.

Definition Registry : Type := gmap NSWindow Peers.

(** Modelled from the spec: the mapping of [w] is established when the
    table has an entry for [w] whose two handles reference, in the calling
    context, a Java window and a platform window (the glossary's "secondary
    peer object distinct from the primary managed window object"). *)
Definition established (reg : Registry) (env : JNIEnv) (w : NSWindow)
    (p : Peers) : Prop :=
  reg !! w = Some p
  /\ class_of env (window p) = Some JavaWindow
  /\ class_of env (platformWindow p) = Some CPlatformWindow.

#[global] Instance established_dec reg env w p :
  Decision (established reg env w p).
Proof. unfold established. apply _. Defined.

(** Modelled from the spec: [w] has no mapping when the table has no entry
    for it. *)
Definition unmapped (reg : Registry) (w : NSWindow) : Prop :=
  reg !! w = None.

(** Modelled from the spec: the body of [getJavaWindow] is not in the
    header.  Section 4: "given an execution context handle and a native
    window handle, returns a managed-runtime object handle representing the
    corresponding managed window, or a null/absent result if no mapping
    exists".  The table is the state the function reads. *)
Definition getJavaWindow (reg : Registry) (env : JNIEnv) (w : NSWindow)
    : jobject :=
  match reg !! w with
  | Some p => window p
  | None => NULL
  end.

(** Modelled from the spec: the body of [getJavaPlatformWindow] is not in
    the header.  Section 4: "same contract, but returns the managed-runtime
    object handle representing a platform window peer object rather than
    the window itself". *)
Definition getJavaPlatformWindow (reg : Registry) (env : JNIEnv)
    (w : NSWindow) : jobject :=
  match reg !! w with
  | Some p => platformWindow p
  | None => NULL
  end.

(** *** A small world to run the accessors in

    Two native windows are registered, at addresses 4096 and 8192; the
    references 1 and 3 are Java windows and 2 and 4 their platform
    windows. *)
Definition sample_env : JNIEnv :=
  {| live := <[1%positive := JavaWindow]>
             (<[2%positive := CPlatformWindow]>
             (<[3%positive := JavaWindow]>
             (<[4%positive := CPlatformWindow]> ∅))) |}.

Definition sample_registry : Registry :=
  <[4096%N := {| window := 1%N; platformWindow := 2%N |}]>
  (<[8192%N := {| window := 3%N; platformWindow := 4%N |}]> ∅).

End Bridge.


(* ===================================================================== *)
(** ** What the declarations say *)
(* ===================================================================== *)

Module HeaderFacts.
Import Header NativeMethod.

Example prototypes_of_header :
  prototypes JavaWindowAccess_h
  = [getJavaWindow_decl; getJavaPlatformWindow_decl].
Proof. reflexivity. Qed.

Example imports_of_header :
  imports JavaWindowAccess_h = ["Cocoa/Cocoa.h"; "jni.h"].
Proof. reflexivity. Qed.

(** A file with a body is told apart from the header: the readers are not
    constant. *)
Example body_is_seen :
  control_flow [FunctionDef getJavaWindow_decl [SIf; SReturn; SReturn]]
  = [SIf].
Proof. reflexivity. Qed.

Example native_method_is_seen :
  native_method_signature
    {| f_ret := TNamed "jdouble";
       f_name := "Java_pkg_Cls_f";
       f_params := [ {| p_type := JNIEnv_ptr; p_name := "env" |};
                     {| p_type := TNamed "jobject"; p_name := "obj" |};
                     {| p_type := TNamed "jint"; p_name := "i" |};
                     {| p_type := TNamed "jstring"; p_name := "s" |} ] |}
  = true.
Proof. reflexivity. Qed.

(** C5.  The interface has exactly two entry points, [getJavaWindow] and
    [getJavaPlatformWindow].  Each takes exactly two parameters, the
    execution-context handle first and the native window identity second,
    and returns a managed-runtime object handle; the two have the same
    parameter and result types; and the result type has a value, the null
    pointer, that references no object and so can stand for "no mapping". *)
Theorem interface_two_entry_points :
  map f_name (prototypes JavaWindowAccess_h)
    = ["getJavaWindow"; "getJavaPlatformWindow"]
  /\ function_definitions JavaWindowAccess_h = []
  /\ Forall (fun d =>
        map (fun p => role_of (p_type p)) (f_params d)
          = [Some ExecutionContext; Some NativeWindow]
        /\ role_of (f_ret d) = Some ManagedObject)
       (prototypes JavaWindowAccess_h)
  /\ signature getJavaWindow_decl = signature getJavaPlatformWindow_decl
  /\ Bridge.is_null Bridge.NULL = true
  /\ (forall env : Bridge.JNIEnv, Bridge.class_of env Bridge.NULL = None).
Proof.
  split; [reflexivity|].
  split; [reflexivity|].
  split.
  { repeat constructor. }
  split; [reflexivity|].
  split; [reflexivity|].
  intros env. reflexivity.
Qed.

(** C7.  The library's interface is one header file.  It declares exactly
    two functions and defines nothing: no function has a body, so there is
    no control flow, and no type and no variable is defined. *)
Theorem header_only_declares :
  map fst source_files = ["libvaqua/JavaWindowAccess.h"]
  /\ length (prototypes JavaWindowAccess_h) = 2
  /\ function_definitions JavaWindowAccess_h = []
  /\ control_flow JavaWindowAccess_h = []
  /\ defined_types JavaWindowAccess_h = []
  /\ global_variables JavaWindowAccess_h = [].
Proof. repeat split. Qed.

(** C8.  The header imports Cocoa, and in both declarations the native
    window identity, the second parameter, is a pointer to [NSWindow]. *)
Theorem native_window_is_NSWindow_pointer :
  In "Cocoa/Cocoa.h" (imports JavaWindowAccess_h)
  /\ Forall (fun d =>
        exists e w, f_params d = [e; w]
                    /\ p_type w = TPtr (TNamed "NSWindow")
                    /\ role_of (p_type w) = Some NativeWindow)
       (prototypes JavaWindowAccess_h).
Proof.
  split.
  - simpl. left. reflexivity.
  - repeat constructor; eexists; eexists; repeat split.
Qed.

(** C6, as stated: both declared functions have the shape of a function
    that the virtual machine calls.  They do not: the first one already
    fails, its second parameter is an [NSWindow *] and not the receiver or
    class that the virtual machine passes. *)
Lemma declared_functions_not_all_native_methods :
  ~ Forall (fun d => native_method_signature d = true)
      (prototypes JavaWindowAccess_h).
Proof.
  intros H. apply Forall_inv in H. vm_compute in H. discriminate H.
Qed.

(** C6, amended.  Both declared functions take the JNI environment pointer
    first and an [NSWindow *] second, and return a [jobject].  An
    [NSWindow *] is neither the receiver nor any type of the JNI, and the
    names carry no [Java_] prefix: neither function has the shape of a
    native method that the virtual machine calls. *)
Theorem accessors_take_env_but_are_no_native_methods :
  Forall (fun d =>
     takes_environment d = true
     /\ f_ret d = jobject_t
     /\ (exists e w, f_params d = [e; w]
                     /\ p_type w = NSWindow_ptr
                     /\ is_receiver (p_type w) = false
                     /\ is_jni_type (p_type w) = false)
     /\ has_java_prefix d = false
     /\ native_method_signature d = false)
    (prototypes JavaWindowAccess_h).
Proof.
  repeat constructor; try (eexists; eexists; repeat split).
Qed.

End HeaderFacts.

(* ===================================================================== *)
(** ** What the accessors return *)
(* ===================================================================== *)

Module BridgeFacts.
Import Bridge.

Example getJavaWindow_registered :
  getJavaWindow sample_registry sample_env 4096%N = 1%N.
Proof. reflexivity. Qed.

Example getJavaPlatformWindow_registered :
  getJavaPlatformWindow sample_registry sample_env 8192%N = 4%N.
Proof. reflexivity. Qed.

Example getJavaWindow_unregistered :
  getJavaWindow sample_registry sample_env 12288%N = NULL.
Proof. reflexivity. Qed.

Example getJavaPlatformWindow_nil :
  getJavaPlatformWindow sample_registry sample_env 0%N = NULL.
Proof. reflexivity. Qed.

Section Accessors.

Variable reg : Registry.
Variable env : JNIEnv.

(** A reference that is live is not the null pointer. *)
Lemma live_not_null (o : jobject) (c : JClass) :
  class_of env o = Some c -> is_null o = false.
Proof. destruct o as [|r]; simpl; [discriminate | reflexivity]. Qed.

(** One reference is a reference to one object: two handles whose objects
    are of different kinds are different handles. *)
Lemma class_separates (o1 o2 : jobject) (c1 c2 : JClass) :
  class_of env o1 = Some c1 -> class_of env o2 = Some c2 -> c1 <> c2 ->
  o1 <> o2.
Proof. intros H1 H2 Hc Heq. subst o2. congruence. Qed.

Lemma established_window (w : NSWindow) (p : Peers) :
  established reg env w p -> getJavaWindow reg env w = window p.
Proof. intros [Hl _]. unfold getJavaWindow. rewrite Hl. reflexivity. Qed.

Lemma established_platformWindow (w : NSWindow) (p : Peers) :
  established reg env w p ->
  getJavaPlatformWindow reg env w = platformWindow p.
Proof. intros [Hl _]. unfold getJavaPlatformWindow. rewrite Hl. reflexivity. Qed.

Lemma established_peers_differ (w : NSWindow) (p : Peers) :
  established reg env w p -> window p <> platformWindow p.
Proof.
  intros (_ & Hw & Hp).
  apply (class_separates _ _ _ _ Hw Hp). discriminate.
Qed.

(** At most one pair of peers is established for a window. *)
Lemma established_functional (w : NSWindow) (p q : Peers) :
  established reg env w p -> established reg env w q -> p = q.
Proof. intros [Hp _] [Hq _]. congruence. Qed.

End Accessors.

(** C1.  For a native window whose mapping is established, [getJavaWindow]
    returns the handle of the corresponding managed window: the window
    handle of the entry, a reference (not null) to a Java window.  For a
    native window with no mapping it returns the null pointer. *)
Theorem getJavaWindow_contract (reg : Registry) (env : JNIEnv) (w : NSWindow) :
  (forall p, established reg env w p ->
     getJavaWindow reg env w = window p
     /\ class_of env (getJavaWindow reg env w) = Some JavaWindow
     /\ is_null (getJavaWindow reg env w) = false)
  /\ (unmapped reg w -> getJavaWindow reg env w = NULL).
Proof.
  split.
  - intros p He.
    rewrite (established_window reg env w p He).
    destruct He as (_ & Hw & _).
    split; [reflexivity|]. split; [exact Hw|].
    exact (live_not_null env _ _ Hw).
  - unfold unmapped, getJavaWindow. intros ->. reflexivity.
Qed.

Lemma getJavaWindow_contract_witness :
  established sample_registry sample_env 4096%N
    {| window := 1%N; platformWindow := 2%N |}
  /\ unmapped sample_registry 12288%N
  /\ getJavaWindow sample_registry sample_env 4096%N = 1%N
  /\ class_of sample_env (getJavaWindow sample_registry sample_env 4096%N)
     = Some JavaWindow
  /\ getJavaWindow sample_registry sample_env 12288%N = NULL.
Proof.
  assert (He : established sample_registry sample_env 4096%N
                 {| window := 1%N; platformWindow := 2%N |})
    by (repeat split).
  assert (Hu : unmapped sample_registry 12288%N) by reflexivity.
  split; [exact He|]. split; [exact Hu|].
  pose proof (getJavaWindow_contract sample_registry sample_env 4096%N)
    as [Hm _].
  pose proof (getJavaWindow_contract sample_registry sample_env 12288%N)
    as [_ Hn].
  destruct (Hm _ He) as (H1 & H2 & _).
  split; [exact H1|]. split; [exact H2|]. exact (Hn Hu).
Defined.

(** C2.  [getJavaPlatformWindow] has the contract of [getJavaWindow], with
    the platform window in the place of the window: for a native window
    whose mapping is established it returns the platform-window handle of
    the entry, a reference (not null) that is not the handle of the managed
    window; for a native window with no mapping it returns the null
    pointer. *)
Theorem getJavaPlatformWindow_contract (reg : Registry) (env : JNIEnv)
    (w : NSWindow) :
  (forall p, established reg env w p ->
     getJavaPlatformWindow reg env w = platformWindow p
     /\ is_null (getJavaPlatformWindow reg env w) = false
     /\ getJavaPlatformWindow reg env w <> window p
     /\ class_of env (getJavaPlatformWindow reg env w) <> Some JavaWindow)
  /\ (unmapped reg w -> getJavaPlatformWindow reg env w = NULL).
Proof.
  split.
  - intros p He.
    rewrite (established_platformWindow reg env w p He).
    pose proof (established_peers_differ reg env w p He) as Hd.
    destruct He as (_ & _ & Hp).
    split; [reflexivity|].
    split; [exact (live_not_null env _ _ Hp)|].
    split; [congruence|].
    rewrite Hp. discriminate.
  - unfold unmapped, getJavaPlatformWindow. intros ->. reflexivity.
Qed.

Lemma getJavaPlatformWindow_contract_witness :
  established sample_registry sample_env 8192%N
    {| window := 3%N; platformWindow := 4%N |}
  /\ unmapped sample_registry 0%N
  /\ getJavaPlatformWindow sample_registry sample_env 8192%N = 4%N
  /\ getJavaPlatformWindow sample_registry sample_env 8192%N <> 3%N
  /\ getJavaPlatformWindow sample_registry sample_env 0%N = NULL.
Proof.
  assert (He : established sample_registry sample_env 8192%N
                 {| window := 3%N; platformWindow := 4%N |})
    by (repeat split).
  assert (Hu : unmapped sample_registry 0%N) by reflexivity.
  split; [exact He|]. split; [exact Hu|].
  pose proof (getJavaPlatformWindow_contract sample_registry sample_env 8192%N)
    as [Hm _].
  pose proof (getJavaPlatformWindow_contract sample_registry sample_env 0%N)
    as [_ Hn].
  destruct (Hm _ He) as (H1 & _ & H3 & _).
  split; [exact H1|]. split; [exact H3|]. exact (Hn Hu).
Defined.

(** C3.  For a native window with no mapping both accessors return the null
    pointer.  Both are total functions of the table, the context and the
    window: the call returns. *)
Theorem unmapped_window_gives_null (reg : Registry) (env : JNIEnv)
    (w : NSWindow) :
  unmapped reg w ->
  getJavaWindow reg env w = NULL /\ getJavaPlatformWindow reg env w = NULL.
Proof.
  unfold unmapped, getJavaWindow, getJavaPlatformWindow.
  intros ->. split; reflexivity.
Qed.

Lemma unmapped_window_gives_null_witness :
  unmapped sample_registry 12288%N
  /\ getJavaWindow sample_registry sample_env 12288%N = NULL
  /\ getJavaPlatformWindow sample_registry sample_env 12288%N = NULL.
Proof.
  split; [reflexivity|].
  apply (unmapped_window_gives_null sample_registry sample_env 12288%N).
  reflexivity.
Defined.

(** C10.  Both declarations return a [jobject] and have no parameter
    besides the context and the window: no error code, no exception
    out-parameter, no status.  A [jobject] is the null pointer or a
    reference and never both, so what a call of either accessor returns is
    the null pointer or a reference. *)
Theorem null_is_the_only_failure_value :
  Forall (fun d =>
     Header.f_ret d = Header.jobject_t
     /\ length (Header.f_params d) = 2
     /\ Header.status_parameters d = [])
    (Header.prototypes Header.JavaWindowAccess_h)
  /\ (forall o : jobject,
        (o = NULL /\ is_reference o = false)
        \/ (o <> NULL /\ is_reference o = true))
  /\ (forall (reg : Registry) (env : JNIEnv) (w : NSWindow),
        (getJavaWindow reg env w = NULL
         \/ is_reference (getJavaWindow reg env w) = true)
        /\ (getJavaPlatformWindow reg env w = NULL
            \/ is_reference (getJavaPlatformWindow reg env w) = true)).
Proof.
  assert (Hd : forall o : jobject,
             (o = NULL /\ is_reference o = false)
             \/ (o <> NULL /\ is_reference o = true)).
  { intros [|r]; [left | right]; split; try reflexivity. discriminate. }
  split; [repeat constructor|].
  split; [exact Hd|].
  intros reg env w. split.
  - destruct (Hd (getJavaWindow reg env w)) as [[H _]|[_ H]]; auto.
  - destruct (Hd (getJavaPlatformWindow reg env w)) as [[H _]|[_ H]]; auto.
Qed.

End BridgeFacts.
